(** * bot_marian: the conversation engine of [main.py]

    A shallow embedding of the five aiogram handlers of [main.py]
    ([cmd_start], [process_language_callback], [handle_conversation] with
    [handle_tool_call], [process_confirm_order], [process_edit_order]) and of
    the dispatcher filters that route an update to them.

    What the handlers call but do not define is kept outside the model:
    - the provider ([client.chat.completions.create]) and the chat transport
      (every [bot.*], [message.*] and [callback.*] call) are an oracle of the
      update, [env]: each call either returns or raises;
    - [json.loads], the gettext lookup [_], [str] of a list or dict and the
      configured [ADMIN_ID] are variables of the section [Bot];
    - the FSM storage is aiogram's [MemoryStorage]: [get_data] hands out a deep
      copy of the stored dict, [update_data] stores the very objects it is given,
      [finish] drops state and data. *)

From Stdlib Require Import String Ascii List ZArith Bool Lia DecimalString.
Import ListNotations.
Open Scope string_scope.

(** ** Python values *)

Set Warnings "-register-all".

(** What [json.loads] returns. A float is kept by its [repr]. *)
Inductive json : Type :=
| JNull
| JBool (b : bool)
| JInt (n : Z)
| JFloat (repr : string)
| JStr (s : string)
| JArr (items : list json)
| JObj (items : list (string * json)).

(** The exceptions the handlers can meet; [except asyncio.TimeoutError] takes
    the first, [except Exception] all the others. *)
Inductive exn : Type :=
| TimeoutError
| JSONDecodeError
| AttributeError
| IndexError
| APIError.

(** A dict with string keys, as the list of its items; [assoc] is [d[k]] where
    there is one. *)
Fixpoint assoc {V : Type} (k : string) (d : list (string * V)) : option V :=
  match d with
  | [] => None
  | (k', v) :: d' => if String.eqb k k' then Some v else assoc k d'
  end.

(** [d.get(k, default)]. *)
Definition get_default {V : Type} (d : list (string * V)) (k : string) (default : V)
  : V :=
  match assoc k d with
  | Some v => v
  | None => default
  end.

(** [d.get(k)] on decoded JSON: the value, or [None]. *)
Definition dict_get (d : list (string * json)) (k : string) : json :=
  get_default d k JNull.

(** [str(n)] for an int. *)
Definition str_int (n : Z) : string := NilZero.string_of_int (Z.to_int n).

Definition nl : string := String "010"%char EmptyString.
Definition dquote : string := String "034"%char EmptyString.

(** [s.split(c)] for a one-character separator. *)
Fixpoint split (c : ascii) (s : string) : list string :=
  match s with
  | EmptyString => [EmptyString]
  | String a r =>
      if Ascii.eqb a c then EmptyString :: split c r
      else match split c r with
           | h :: t => String a h :: t
           | [] => [String a EmptyString]
           end
  end.

Definition startswith (s p : string) : bool := String.prefix p s.

(** ** Session data *)

Inductive role : Type := system | user | assistant.

(** One entry of [history]: [{"role": ..., "content": ...}]. The provider may
    answer with [content = None]. *)
Record turn : Type := Turn { turn_role : role; content : option string }.

(** [class Conversation(StatesGroup)]. *)
Inductive Conversation : Type := waiting_for_language | active | confirmation.

(** The per-user dict of the storage; the handlers only ever use these keys. *)
Record user_data : Type := UserData {
  lang : option string;
  history : option (list turn);
  order_details : option json
}.

Definition no_data : user_data := UserData None None None.

(** The storage entry of the user: FSM state ([None] when there is none) and
    data. *)
Record storage : Type := Storage {
  state : option Conversation;
  data : user_data
}.

Definition fresh : storage := Storage None no_data.

(** ** Updates and the outside world *)

Record User : Type := { user_id : Z; username : option string }.

Record Message : Type := {
  text : string;
  chat_id : Z;
  from_user : User
}.

Record CallbackQuery : Type := {
  cb_data : string;
  cb_from_user : User;
  cb_chat_id : Z;
  cb_message_id : Z
}.

Record button : Type := Button { label : string; callback_data : string }.

Inductive reply_markup : Type :=
| InlineKeyboardMarkup (row_width : nat) (buttons : list button)
| ReplyKeyboardRemove.

(** A message of the chat: one the update carries, or the one delivered by the
    [k]-th transport call of the running handler. *)
Inductive message_ref : Type :=
| Received (message_id : Z)
| Delivered (k : nat).

(** The transport calls, after aiogram's shortcuts are unfolded
    ([message.answer] is [send_message] to [message.chat.id], and so on). *)
Inductive action : Type :=
| send_message (chat : Z) (txt : string) (markup : option reply_markup)
    (parse_mode : option string)
| edit_message_text (txt : option string) (chat : Z) (m : message_ref)
    (parse_mode : option string)
| edit_message_reply_markup (chat : Z) (m : message_ref)
| delete_message (chat : Z) (m : message_ref)
| answer_callback_query (txt : option string).

Record tool_call : Type := { tc_name : string; tc_arguments : string }.

(** Lines 160-168 of [handle_conversation]: the call raises, or yields
    [response.choices[0].message] with its [content] and [tool_calls]. *)
Inductive completion : Type :=
| Raises (e : exn)
| Replies (reply : option string) (tool_calls : list tool_call).

(** The outside world during one update: whether the [k]-th transport call of
    the handler is delivered ([None]) or raises, what the provider does with
    the messages it is sent, and the locale the i18n middleware picked. *)
Record env : Type := {
  transport : nat -> option exn;
  provider : list turn -> completion;
  locale : string
}.

(** ** The handler monad: state and exceptions *)

(** What a running handler can touch: the storage entry, its own [history]
    list (and whether the storage holds that very list object), the delivered
    transport calls, the number of transport calls attempted, the requests
    sent to the provider, and the gettext context locale. *)
Record world : Type := World {
  store : storage;
  history_var : list turn;
  shared : bool;
  sent : list action;
  calls : nat;
  requests : list (list turn);
  ctx_locale : string
}.

Inductive outcome (A : Type) : Type :=
| Returns (a : A)
| Raised (e : exn).
Arguments Returns {A} a.
Arguments Raised {A} e.

Definition M (A : Type) : Type := world -> outcome A * world.

Definition ret {A} (a : A) : M A := fun w => (Returns a, w).

Definition bind {A B} (m : M A) (k : A -> M B) : M B :=
  fun w => match m w with
           | (Returns a, w') => k a w'
           | (Raised e, w') => (Raised e, w')
           end.

Definition raise {A} (e : exn) : M A := fun w => (Raised e, w).

(** [try: body except ...: handler]. *)
Definition try_except {A} (body : M A) (handler : exn -> M A) : M A :=
  fun w => match body w with
           | (Returns a, w') => (Returns a, w')
           | (Raised e, w') => handler e w'
           end.

Notation "x <- m ;; k" := (bind m (fun x => k))
  (at level 61, m at next level, right associativity).
Notation "m ;; k" := (bind m (fun _ => k))
  (at level 61, right associativity).

Definition read {A} (f : world -> A) : M A := fun w => (Returns (f w), w).
Definition write (f : world -> world) : M unit := fun w => (Returns tt, f w).

Definition with_store (f : storage -> storage) (w : world) : world :=
  World (f (store w)) (history_var w) (shared w) (sent w) (calls w)
        (requests w) (ctx_locale w).

Definition with_data (f : user_data -> user_data) : world -> world :=
  with_store (fun s => Storage (state s) (f (data s))).

(** *** The storage, as [FSMContext] shows it *)

(** [await state.get_data()]: a deep copy. *)
Definition get_data : M user_data := read (fun w => data (store w)).

(** [await state.finish()]. *)
Definition finish : M unit := write (with_store (fun _ => fresh)).

(** [await Conversation.<s>.set()]. *)
Definition set (s : Conversation) : M unit :=
  write (with_store (fun st => Storage (Some s) (data st))).

(** [await state.update_data(order_details=arguments)]. *)
Definition update_data_order_details (v : json) : M unit :=
  write (with_data (fun d => UserData (lang d) (history d) (Some v))).

(** [await state.update_data(lang=l, history=h)], [h] a list built in place. *)
Definition update_data_lang_history (l : string) (h : list turn) : M unit :=
  write (with_data (fun d => UserData (Some l) (Some h) (order_details d))).

(** *** The handler's [history] list *)

(** [user_data.get("history", [])]. *)
Definition history_of (d : user_data) : list turn :=
  match history d with
  | Some h => h
  | None => []
  end.

(** [user_data.get("lang", "ru")]. *)
Definition lang_of (d : user_data) : string :=
  match lang d with
  | Some l => l
  | None => "ru"
  end.

(** [history = user_data.get("history", [])]: the handler's list is the one of
    the copy [get_data] made, not the stored one. *)
Definition bind_history (d : user_data) : M unit :=
  write (fun w =>
    World (store w) (history_of d) false (sent w) (calls w) (requests w)
          (ctx_locale w)).

(** The list object changes; so does the storage when it holds that object. *)
Definition set_history (h : list turn) (w : world) : world :=
  let w' := World (store w) h (shared w) (sent w) (calls w) (requests w)
                  (ctx_locale w) in
  if shared w
  then with_data (fun d => UserData (lang d) (Some h) (order_details d)) w'
  else w'.

(** [history.append(t)]. *)
Definition history_append (t : turn) : M unit :=
  write (fun w => set_history (history_var w ++ [t])%list w).

(** [history.pop()]. *)
Definition history_pop : M unit :=
  fun w => match history_var w with
           | [] => (Raised IndexError, w)
           | _ :: _ => (Returns tt, set_history (removelast (history_var w)) w)
           end.

(** [await state.update_data(history=history)]: the storage now holds the
    handler's list. *)
Definition update_data_history : M unit :=
  write (fun w =>
    with_data (fun d => UserData (lang d) (Some (history_var w)) (order_details d))
      (World (store w) (history_var w) true (sent w) (calls w) (requests w)
             (ctx_locale w))).

(** *** The outside world *)

(** One transport call: delivered and recorded, or it raises. The result is
    the position of the call, which names the message it delivered. *)
Definition call (e : env) (a : action) : M nat :=
  fun w =>
    let k := calls w in
    match transport e k with
    | None =>
        (Returns k,
         World (store w) (history_var w) (shared w) (sent w ++ [a])%list (S k)
               (requests w) (ctx_locale w))
    | Some x =>
        (Raised x,
         World (store w) (history_var w) (shared w) (sent w) (S k)
               (requests w) (ctx_locale w))
    end.

(** [client.chat.completions.create(messages=history, ...)] and the reading of
    [response.choices[0].message]. *)
Definition create (e : env) : M (option string * list tool_call) :=
  fun w =>
    let w' := World (store w) (history_var w) (shared w) (sent w) (calls w)
                    (requests w ++ [history_var w])%list (ctx_locale w) in
    match provider e (history_var w) with
    | Raises x => (Raised x, w')
    | Replies c tcs => (Returns (c, tcs), w')
    end.

(** [i18n.ctx_locale.set(l)]. *)
Definition set_locale (l : string) : M unit :=
  write (fun w => World (store w) (history_var w) (shared w) (sent w) (calls w)
                        (requests w) l).

(** The world a handler starts in. *)
Definition enter (e : env) (s : storage) : world :=
  World s [] false [] 0 [] (locale e).

(** ** The prompt *)

Definition lang_map : list (string * string) :=
  [ ("ru", "русском"); ("en", "английском"); ("pl", "польском") ].

Definition prompt_head : list string :=
  [ EmptyString;
    "Ты — " ++ dquote ++ "Smoky" ++ dquote
      ++ ", дружелюбный и профессиональный AI-ассистент сервиса кальянного кейтеринга.";
    "Твоя главная задача — в естественном диалоге помочь пользователю оформить заказ.";
    EmptyString;
    "Тебе НЕОБХОДИМО собрать следующую информацию:";
    "1. arrival_time: Время и дата прибытия.";
    "2. duration_hours: Продолжительность мероприятия в часах.";
    "3. hookah_masters_count: Количество кальянных мастеров.";
    "4. hookahs_count: Количество кальянов.";
    "5. location: Полный адрес мероприятия.";
    "6. phone_number: Контактный номер телефона пользователя.";
    EmptyString;
    "Веди диалог естественно. Не задавай все вопросы сразу.";
    EmptyString;
    "КРАЙНЕ ВАЖНО: Как только ты соберешь ВСЮ необходимую информацию, ты ДОЛЖЕН вызвать функцию `create_hookah_order`.";
    EmptyString ].

(** The line of the prompt that names the language. *)
Definition language_rule (language_name : string) : string :=
  "САМОЕ ГЛАВНОЕ ПРАВИЛО: Ты ОБЯЗАН общаться с пользователем СТРОГО на "
    ++ language_name ++ " языке.".

Definition prompt_tail (language_name : string) : list string :=
  [ language_rule language_name;
    "Не используй ни одного слова из других языков. Это твое самое важное правило.";
    EmptyString ].

(** The f-string of [get_system_prompt], line by line. *)
Definition get_system_prompt (lang_code : string) : string :=
  let language_name := get_default lang_map lang_code "русском" in
  String.concat nl (app prompt_head (prompt_tail language_name)).

Definition lang_reminders : list (string * string) :=
  [ ("ru", "(Напоминание: отвечай только на русском языке)");
    ("en", "(Reminder: reply in English only)");
    ("pl", "(Przypomnienie: odpowiadaj tylko po polsku)") ].

(** [f"@{u.username}" if u.username else f"tg://user?id={u.id}"]. *)
Definition user_link (u : User) : string :=
  match username u with
  | Some (String a r) => "@" ++ String a r
  | _ => "tg://user?id=" ++ str_int (user_id u)
  end.

(** ** The handlers *)

Section Bot.

(** [json.loads]: the decoded value, or [None] where it raises. *)
Variable json_loads : string -> option json.
(** [i18n.gettext] at a locale. *)
Variable gettext : string -> string -> string.
(** [str] of a list or a dict. *)
Variable str_container : json -> string.
(** The configured operator chat. *)
Variable ADMIN_ID : Z.

(** [str(v)], as an f-string field formats it. *)
Definition str (v : json) : string :=
  match v with
  | JNull => "None"
  | JBool true => "True"
  | JBool false => "False"
  | JInt n => str_int n
  | JFloat r => r
  | JStr s => s
  | JArr _ | JObj _ => str_container v
  end.

(** [_(key)]. *)
Definition tr (key : string) : M string :=
  read (fun w => gettext (ctx_locale w) key).

(** [v.get]: bound for a dict, [AttributeError] for anything else. *)
Definition get_method (v : option json) : M (string -> json) :=
  match v with
  | Some (JObj d) => ret (dict_get d)
  | _ => raise AttributeError
  end.

Definition language_keyboard : reply_markup :=
  InlineKeyboardMarkup 3
    [ Button "🇷🇺 Русский" "lang_ru";
      Button "🇬🇧 English" "lang_en";
      Button "🇵🇱 Polski" "lang_pl" ].

Definition cmd_start (e : env) (message : Message) : M unit :=
  finish ;;
  let keyboard := language_keyboard in
  call e (send_message (chat_id message)
    "Please choose your language / Пожалуйста, выберите язык / Proszę wybrać język:"
    (Some keyboard) None) ;;
  set waiting_for_language.

Definition process_language_callback (e : env) (callback : CallbackQuery)
  : M unit :=
  lang_code <- match split "_" (cb_data callback) with
               | _ :: c :: _ => ret c
               | _ => raise IndexError
               end ;;
  call e (delete_message (cb_chat_id callback)
                         (Received (cb_message_id callback))) ;;
  call e (answer_callback_query None) ;;
  set_locale lang_code ;;
  let system_prompt := get_system_prompt lang_code in
  update_data_lang_history lang_code [Turn system (Some system_prompt)] ;;
  set active ;;
  welcome <- tr "welcome_message" ;;
  call e (send_message (user_id (cb_from_user callback)) welcome
                       (Some ReplyKeyboardRemove) None) ;;
  ret tt.

Definition confirm_keyboard (loc : string) : reply_markup :=
  InlineKeyboardMarkup 2
    [ Button ("✅ " ++ gettext loc "button_confirm") "confirm_order";
      Button ("✏️ " ++ gettext loc "button_edit") "edit_order" ].

(** The f-string of [handle_tool_call]. *)
Definition summary_text (loc : string) (get : string -> json) (link : string)
  : string :=
  "🔍 **" ++ gettext loc "summary_title" ++ "**" ++ nl ++ nl
  ++ "**" ++ gettext loc "summary_when" ++ ":** "
     ++ str (get "arrival_time") ++ nl
  ++ "**" ++ gettext loc "summary_duration" ++ ":** "
     ++ str (get "duration_hours") ++ " ч." ++ nl
  ++ "**" ++ gettext loc "summary_hookahs" ++ ":** "
     ++ str (get "hookahs_count") ++ " шт." ++ nl
  ++ "**" ++ gettext loc "summary_masters" ++ ":** "
     ++ str (get "hookah_masters_count") ++ " чел." ++ nl
  ++ "**" ++ gettext loc "summary_where" ++ ":** "
     ++ str (get "location") ++ nl
  ++ "**" ++ gettext loc "summary_phone" ++ ":** "
     ++ str (get "phone_number") ++ nl ++ nl
  ++ "**" ++ gettext loc "summary_client" ++ ":** " ++ link.

Definition handle_tool_call (e : env) (message : Message) (tc : tool_call)
  : M unit :=
  if String.eqb (tc_name tc) "create_hookah_order" then
    arguments <- match json_loads (tc_arguments tc) with
                 | Some v => ret v
                 | None => raise JSONDecodeError
                 end ;;
    update_data_order_details arguments ;;
    let user_link := user_link (from_user message) in
    loc <- read ctx_locale ;;
    get <- get_method (Some arguments) ;;
    let summary := summary_text loc get user_link in
    let keyboard := confirm_keyboard loc in
    call e (send_message (chat_id message) summary (Some keyboard)
                         (Some "Markdown")) ;;
    set confirmation
  else ret tt.

(** The turn appended for an inbound message: its text, a space, and
    [lang_reminders.get(lang, '')]. *)
Definition user_turn (lang : string) (message : Message) : turn :=
  let user_message_with_reminder :=
    text message ++ " " ++ get_default lang_reminders lang EmptyString in
  Turn user (Some user_message_with_reminder).

Definition handle_conversation (e : env) (message : Message) : M unit :=
  user_data <- get_data ;;
  bind_history user_data ;;
  let lang := lang_of user_data in
  history_append (user_turn lang message) ;;
  thinking <- tr "thinking_message" ;;
  thinking_message <- call e (send_message (chat_id message) thinking None None) ;;
  try_except
    (response_message <- create e ;;
     let tool_calls := snd response_message in
     match tool_calls with
     | tc :: _ =>
         handle_tool_call e message tc ;;
         call e (delete_message (chat_id message) (Delivered thinking_message)) ;;
         ret tt
     | [] =>
         let ai_response_text := fst response_message in
         history_append (Turn assistant ai_response_text) ;;
         update_data_history ;;
         call e (edit_message_text ai_response_text (chat_id message)
                                   (Delivered thinking_message) None) ;;
         ret tt
     end)
    (fun x =>
       match x with
       | TimeoutError =>
           msg <- tr "timeout_error_message" ;;
           call e (edit_message_text (Some msg) (chat_id message)
                                     (Delivered thinking_message) None) ;;
           history_pop ;;
           update_data_history
       | _ =>
           msg <- tr "error_message" ;;
           call e (edit_message_text (Some msg) (chat_id message)
                                     (Delivered thinking_message) None) ;;
           history_pop ;;
           update_data_history
       end).

(** The f-string of [process_confirm_order]. *)
Definition admin_summary_text (get : string -> json) (link : string) : string :=
  "📩 **Новый заказ!**" ++ nl ++ nl
  ++ "Когда: " ++ str (get "arrival_time") ++ nl
  ++ "На сколько: " ++ str (get "duration_hours") ++ " ч." ++ nl
  ++ "Кальяны: " ++ str (get "hookahs_count") ++ " шт." ++ nl
  ++ "Мастера: " ++ str (get "hookah_masters_count") ++ " чел." ++ nl
  ++ "Куда: " ++ str (get "location") ++ nl
  ++ "Телефон: " ++ str (get "phone_number") ++ nl ++ nl
  ++ "Клиент: " ++ link.

Definition process_confirm_order (e : env) (callback : CallbackQuery)
  : M unit :=
  user_data <- get_data ;;
  let order_details := order_details user_data in
  let user := cb_from_user callback in
  let user_link := user_link user in
  get <- get_method order_details ;;
  let admin_summary := admin_summary_text get user_link in
  call e (send_message ADMIN_ID admin_summary None (Some "Markdown")) ;;
  thanks <- tr "confirmation_thanks_message" ;;
  call e (edit_message_text (Some thanks) (cb_chat_id callback)
                            (Received (cb_message_id callback))
                            (Some "Markdown")) ;;
  call e (answer_callback_query None) ;;
  finish.

Definition edit_turn : turn :=
  Turn assistant
    (Some "Пользователь хочет внести изменения в заказ. Уточни, что именно нужно поменять.").

Definition process_edit_order (e : env) (callback : CallbackQuery) : M unit :=
  call e (edit_message_reply_markup (cb_chat_id callback)
                                    (Received (cb_message_id callback))) ;;
  note <- tr "edit_callback_answer" ;;
  call e (answer_callback_query (Some note)) ;;
  user_data <- get_data ;;
  bind_history user_data ;;
  history_append edit_turn ;;
  update_data_history ;;
  prompt <- tr "edit_prompt_message" ;;
  call e (send_message (cb_chat_id callback) prompt None None) ;;
  set active.

(** ** The dispatcher *)

Inductive update : Type :=
| start_command (m : Message)      (* a message the [commands=['start']] filter takes *)
| text_message (m : Message)       (* any other text message *)
| callback_query (c : CallbackQuery).

(** The first registered handler whose filters accept the update in the
    current state; an update none accepts changes nothing. *)
Definition dispatch (u : update) (e : env) : M unit :=
  fun w =>
    match u, state (store w) with
    | start_command m, _ => cmd_start e m w
    | text_message m, Some active => handle_conversation e m w
    | callback_query c, Some waiting_for_language =>
        if startswith (cb_data c) "lang_"
        then process_language_callback e c w
        else (Returns tt, w)
    | callback_query c, Some confirmation =>
        if String.eqb (cb_data c) "confirm_order"
        then process_confirm_order e c w
        else if String.eqb (cb_data c) "edit_order"
        then process_edit_order e c w
        else (Returns tt, w)
    | _, _ => (Returns tt, w)
    end.

(** The storage entry after one update. An exception that leaves a handler
    is logged by the dispatcher; what the handler stored stays. *)
Definition step (s : storage) (u : update) (e : env) : storage :=
  store (snd (dispatch u e (enter e s))).

Inductive reachable : storage -> Prop :=
| reachable_fresh : reachable fresh
| reachable_step s u e : reachable s -> reachable (step s u e).

(** One update, from the storage entry [s]: what the handler returned or
    raised, and the world it left. *)
Definition run (s : storage) (u : update) (e : env) : outcome unit * world :=
  dispatch u e (enter e s).

(** [sub in s]. *)
Definition contains (s sub : string) : Prop :=
  exists before after, s = before ++ sub ++ after.

(** Every user turn of [h] is directly followed by an assistant turn. *)
Fixpoint paired (h : list turn) : Prop :=
  match h with
  | [] => True
  | t :: rest =>
      match turn_role t with
      | user =>
          match rest with
          | a :: _ => turn_role a = assistant
          | [] => False
          end
      | _ => True
      end /\ paired rest
  end.

(** The key of the message an exception is reported with. *)
Definition error_key (x : exn) : string :=
  match x with
  | TimeoutError => "timeout_error_message"
  | _ => "error_message"
  end.

(** The [required] list of the schema in [TOOLS]. *)
Definition required : list string :=
  [ "arrival_time"; "duration_hours"; "hookah_masters_count";
    "hookahs_count"; "location"; "phone_number" ].

(** What can go wrong between sending [request] and having handled the
    reply, the transport apart: the call or the reading of its result raises
    (lines 160-168), [json.loads] raises on the arguments of a
    [create_hookah_order] call (line 192), or the decoded arguments are no
    dict and have no [get] (line 199). *)
Inductive adapter_failure (e : env) (request : list turn) : exn -> Prop :=
| completion_raises x :
    provider e request = Raises x ->
    adapter_failure e request x
| arguments_malformed c tc tcs :
    provider e request = Replies c (tc :: tcs) ->
    tc_name tc = "create_hookah_order" ->
    json_loads (tc_arguments tc) = None ->
    adapter_failure e request JSONDecodeError
| arguments_not_a_dict c tc tcs v :
    provider e request = Replies c (tc :: tcs) ->
    tc_name tc = "create_hookah_order" ->
    json_loads (tc_arguments tc) = Some v ->
    (forall d, v <> JObj d) ->
    adapter_failure e request AttributeError.

(** What [handle_conversation] sends the provider for message [m]. *)
Definition request_for (s : storage) (m : Message) : list turn :=
  (history_of (data s) ++ [user_turn (lang_of (data s)) m])%list.

(** The transport delivers the second call of [handle_conversation]: the
    reply, the summary or the error report, whichever the turn comes to. *)
Definition reply_delivered (u : update) (e : env) : Prop :=
  match u with
  | text_message _ => transport e 1 = None
  | _ => True
  end.

(** In [confirmation] the stored order is a decoded object. *)
Definition order_present (s : storage) : Prop :=
  state s = Some confirmation ->
  exists d, order_details (data s) = Some (JObj d).

(** The stored history is paired. *)
Definition history_paired (s : storage) : Prop :=
  paired (history_of (data s)).

(** The storage entries reached through updates whose replies get
    delivered. *)
Inductive reachable_delivering : storage -> Prop :=
| delivering_fresh : reachable_delivering fresh
| delivering_step s u e :
    reachable_delivering s -> reply_delivered u e ->
    reachable_delivering (step s u e).

(** The session data after a language was chosen: [lang] is set and the
    history opens with the system turn holding the prompt for it. *)
Definition seeded (d : user_data) : Prop :=
  exists code rest,
    lang d = Some code /\
    history d = Some (Turn system (Some (get_system_prompt code)) :: rest).

(** What each state of [Conversation] comes with. *)
Definition well_formed (s : storage) : Prop :=
  match state s with
  | None | Some waiting_for_language => data s = no_data
  | Some active => seeded (data s)
  | Some confirmation => seeded (data s) /\ order_present s
  end.

(** [h1] is [h2] with turns added at its end, at most [n] of them. *)
Definition extends_by (n : nat) (h1 h2 : list turn) : Prop :=
  exists added, h1 = (h2 ++ added)%list /\ List.length added <= n.

(** ** Sample inputs *)

Definition quoted (s : string) : string := dquote ++ s ++ dquote.

Definition full_payload : string :=
  "{" ++ quoted "arrival_time" ++ ": " ++ quoted "Tomorrow at 8pm" ++ ", "
  ++ quoted "duration_hours" ++ ": 3, "
  ++ quoted "hookah_masters_count" ++ ": 2, "
  ++ quoted "hookahs_count" ++ ": 5, "
  ++ quoted "location" ++ ": " ++ quoted "Main St 1" ++ ", "
  ++ quoted "phone_number" ++ ": " ++ quoted "+1234567890" ++ "}".

Definition full_order : json :=
  JObj [ ("arrival_time", JStr "Tomorrow at 8pm");
         ("duration_hours", JInt 3);
         ("hookah_masters_count", JInt 2);
         ("hookahs_count", JInt 5);
         ("location", JStr "Main St 1");
         ("phone_number", JStr "+1234567890") ].

Definition partial_payload : string :=
  "{" ++ quoted "arrival_time" ++ ": " ++ quoted "Tomorrow at 8pm" ++ "}".

Definition partial_order : json :=
  JObj [ ("arrival_time", JStr "Tomorrow at 8pm") ].

(** [json.loads] on the payloads of the examples: the two objects above
    decode, the truncated text ["{"] does not. *)
Definition sample_loads (s : string) : option json :=
  if String.eqb s full_payload then Some full_order
  else if String.eqb s partial_payload then Some partial_order
  else None.

(** A gettext with no catalogue: it returns the key. *)
Definition sample_gettext (loc key : string) : string := key.

Definition sample_str_container (v : json) : string := "{...}".

Definition sample_admin : Z := 777.

Definition alice : User := {| user_id := 42; username := Some "alice" |}.

Definition says (t : string) : Message :=
  {| text := t; chat_id := 42; from_user := alice |}.

Definition presses (d : string) : CallbackQuery :=
  {| cb_data := d; cb_from_user := alice; cb_chat_id := 42;
     cb_message_id := 7 |}.

(** A world where every transport call is delivered. *)
Definition quiet (p : completion) : env :=
  {| transport := fun _ => None; provider := fun _ => p; locale := "en" |}.

(** A world where the second transport call of the handler raises and all
    others are delivered. *)
Definition second_call_fails (p : completion) : env :=
  {| transport := fun k => if Nat.eqb k 1 then Some APIError else None;
     provider := fun _ => p;
     locale := "en" |}.

Definition calls_tool (name arguments : string) : completion :=
  Replies None [ {| tc_name := name; tc_arguments := arguments |} ].

Definition order_message : Message :=
  says "Tomorrow at 8pm, 3 hours, 2 masters, 5 hookahs, Main St 1, +1234567890".

(** The session after [/start] and the choice of a language. *)
Definition session (code : string) : storage :=
  Storage (Some active)
    (UserData (Some code) (Some [Turn system (Some (get_system_prompt code))])
              None).

(** The session once an order was extracted. *)
Definition confirming (order : json) : storage :=
  Storage (Some confirmation)
    (UserData (Some "en") (Some [Turn system (Some (get_system_prompt "en"))])
              (Some order)).

(** [json.loads] that also decodes the empty list. *)
Definition list_loads (s : string) : option json :=
  if String.eqb s "[]" then Some (JArr []) else sample_loads s.

(** A world where the [n]-th transport call of the handler raises and all
    others are delivered. *)
Definition call_fails (n : nat) (p : completion) : env :=
  {| transport := fun k => if Nat.eqb k n then Some APIError else None;
     provider := fun _ => p;
     locale := "en" |}.

(** ** Running the handlers symbolically *)

Lemma history_pop_last s h t sh se c r l :
  history_pop (World s (h ++ [t])%list sh se c r l)
  = (Returns tt, set_history h (World s (h ++ [t])%list sh se c r l)).
Proof.
  unfold history_pop. cbn [history_var].
  rewrite removelast_last.
  destruct (h ++ [t])%list eqn:E; [ | reflexivity ].
  destruct h; discriminate.
Qed.

Ltac open_handlers :=
  cbv [run step dispatch cmd_start process_language_callback
       handle_conversation handle_tool_call process_confirm_order
       process_edit_order bind try_except get_data read bind_history write
       history_append tr call create update_data_history with_data
       with_store update_data_order_details update_data_lang_history
       set_locale finish get_method ret raise set enter fresh no_data].

Ltac tidy :=
  cbn [fst snd store history_var shared sent calls requests ctx_locale
       state data lang history order_details set_history with_data
       with_store app] in *.

(** Follow the handler along every outcome of the outside world. *)
Ltac crunch :=
  repeat (tidy;
    match goal with
    | |- context [history_pop _] => rewrite history_pop_last
    | H : transport ?e ?k = _ |- context [transport ?e ?k] => rewrite H
    | |- context [match transport ?e ?k with _ => _ end] =>
        destruct (transport e k) eqn:?
    | |- context [match provider ?e ?k with _ => _ end] =>
        destruct (provider e k) eqn:?
    | |- context [match json_loads ?k with _ => _ end] =>
        destruct (json_loads k) eqn:?
    | |- context [if String.eqb ?a ?b then _ else _] =>
        destruct (String.eqb a b) eqn:?
    | |- context [if startswith ?a ?b then _ else _] =>
        destruct (startswith a b) eqn:?
    | |- context [match split ?a ?b with _ => _ end] =>
        destruct (split a b) eqn:?
    | |- context [match order_details ?d with _ => _ end] =>
        destruct (order_details d) eqn:?
    | |- context [match ?x with _ => _ end] => is_var x; destruct x eqn:?
    end);
  tidy.

(** Follow the handler along the outcomes the hypotheses fix. *)
Ltac follow :=
  repeat (tidy;
    match goal with
    | |- context [history_pop _] => rewrite history_pop_last
    | H : transport ?e ?k = _ |- context [transport ?e ?k] => rewrite H
    | H : provider ?e ?h = _ |- context [provider ?e ?h] => rewrite H
    | H : json_loads ?a = _ |- context [json_loads ?a] => rewrite H
    | H : String.eqb ?a ?b = _ |- context [String.eqb ?a ?b] => rewrite H
    | H : startswith ?a ?b = _ |- context [startswith ?a ?b] => rewrite H
    | H : split ?a ?b = _ |- context [split ?a ?b] => rewrite H
    end);
  tidy.

(** ** The order held while confirming *)

Lemma order_present_step s u e :
  order_present s -> order_present (step s u e).
Proof.
  unfold order_present. intros H.
  destruct s as [st d]. tidy. destruct u as [m | m | c].
  - open_handlers. crunch; discriminate.
  - destruct st as [[ | | ] | ]; try exact H.
    open_handlers. crunch; try discriminate; eauto.
  - destruct st as [[ | | ] | ]; try exact H.
    + open_handlers. crunch; try discriminate; eauto.
    + destruct (H eq_refl) as [o Ho].
      open_handlers. tidy. rewrite Ho. crunch; try discriminate; eauto.
Qed.

Lemma reachable_order_present s : reachable s -> order_present s.
Proof.
  induction 1 as [ | s u e _ IH ].
  - discriminate.
  - now apply order_present_step.
Qed.

(** ** Substrings *)

Lemma append_assoc (a b c : string) : (a ++ b) ++ c = a ++ b ++ c.
Proof. induction a as [ | x a IH ]; cbn; [ reflexivity | now rewrite IH ]. Qed.

Lemma contains_head (sub rest : string) : contains (sub ++ rest) sub.
Proof. exists EmptyString, rest. reflexivity. Qed.

Lemma contains_skip (a rest sub : string) :
  contains rest sub -> contains (a ++ rest) sub.
Proof.
  intros [before [after H]]. exists (a ++ before), after.
  rewrite H. symmetry. apply append_assoc.
Qed.

Ltac find_substring :=
  repeat first [ apply contains_head | apply contains_skip ].

(** ** The prompt names the language *)

Lemma prompt_contains_rule (lang_code : string) :
  contains (get_system_prompt lang_code)
           (language_rule (get_default lang_map lang_code "русском")).
Proof.
  unfold get_system_prompt.
  cbn [String.concat app prompt_head prompt_tail].
  find_substring.
Qed.

Lemma prompt_of_unknown_code (lang_code : string) :
  assoc lang_code lang_map = None ->
  get_system_prompt lang_code = get_system_prompt "ru".
Proof.
  intros H. unfold get_system_prompt, get_default. rewrite H. reflexivity.
Qed.

(** ** Pairing of the stored history *)

Lemma paired_snoc_assistant h c :
  paired h -> paired (h ++ [Turn assistant c]).
Proof.
  induction h as [ | t rest IH ]; cbn [app paired].
  - cbn. auto.
  - intros [Ht Hrest]. split; [ | auto ].
    destruct (turn_role t); auto.
    destruct rest; cbn [app]; [ reflexivity | exact Ht ].
Qed.

Lemma paired_snoc_user_assistant h u c :
  paired h -> paired (h ++ [Turn user u; Turn assistant c]).
Proof.
  induction h as [ | t rest IH ]; cbn [app paired].
  - cbn. auto.
  - intros [Ht Hrest]. split; [ | auto ].
    destruct (turn_role t); auto.
    destruct rest; cbn [app]; [ contradiction | exact Ht ].
Qed.

Lemma history_paired_step s u e :
  reply_delivered u e -> history_paired s -> history_paired (step s u e).
Proof.
  unfold history_paired. intros Hd H.
  destruct s as [st d]. tidy. destruct u as [m | m | c]; cbn in Hd.
  - open_handlers. crunch; cbn; auto.
  - destruct st as [[ | | ] | ]; try exact H.
    open_handlers. unfold user_turn.
    crunch; cbn [history_of history];
      rewrite <- ?app_assoc; cbn [app];
      auto using paired_snoc_user_assistant.
  - destruct st as [[ | | ] | ]; try exact H;
      open_handlers; crunch; cbn [history_of history];
      try apply paired_snoc_assistant; cbn; auto.
Qed.

Lemma delivering_history_paired s :
  reachable_delivering s -> history_paired s.
Proof.
  induction 1 as [ | s u e _ IH Hd ].
  - exact I.
  - now apply history_paired_step.
Qed.

Lemma session_en_reachable : reachable (session "en").
Proof.
  change (session "en")
    with (step (step fresh (start_command (says "/start"))
                     (quiet (Raises APIError)))
               (callback_query (presses "lang_en"))
               (quiet (Raises APIError))).
  repeat constructor.
Qed.

(** ** The properties *)

(** C10: whenever the state is [confirmation], [order_details] is present in
    the session data, and it is a decoded object: the only transition into
    [confirmation] stores it first and nothing clears it while confirming.
    So [process_confirm_order] finds an order with a [get] method when it
    builds the operator summary. *)
Theorem confirmation_has_order_details s :
  reachable s ->
  state s = Some confirmation ->
  exists d,
    order_details (data s) = Some (JObj d) /\
    forall w,
      get_method (order_details (data s)) w = (Returns (dict_get d), w).
Proof.
  intros Hr Hs.
  destruct (reachable_order_present s Hr Hs) as [d Hd].
  exists d. split; [ exact Hd | ].
  intros w. rewrite Hd. reflexivity.
Qed.

(** C7: on a confirm press while confirming, with the transport delivering
    the three calls, the operator chat [ADMIN_ID] gets exactly one message,
    built without any gettext lookup, with the six order fields and the
    client link in the order when, duration, hookahs, masters, location,
    phone, client; the pressed message is edited to the localized thanks; the
    storage entry is dropped (it is that of a user never seen), and the next
    [/start] opens a session with no data. *)
Theorem confirm_forwards_and_disposes s e c :
  reachable s ->
  state s = Some confirmation ->
  cb_data c = "confirm_order" ->
  transport e 0 = None -> transport e 1 = None -> transport e 2 = None ->
  exists d admin_summary w,
    order_details (data s) = Some (JObj d) /\
    admin_summary =
      "📩 **Новый заказ!**" ++ nl ++ nl
      ++ "Когда: " ++ str (dict_get d "arrival_time") ++ nl
      ++ "На сколько: " ++ str (dict_get d "duration_hours") ++ " ч." ++ nl
      ++ "Кальяны: " ++ str (dict_get d "hookahs_count") ++ " шт." ++ nl
      ++ "Мастера: " ++ str (dict_get d "hookah_masters_count") ++ " чел." ++ nl
      ++ "Куда: " ++ str (dict_get d "location") ++ nl
      ++ "Телефон: " ++ str (dict_get d "phone_number") ++ nl ++ nl
      ++ "Клиент: " ++ user_link (cb_from_user c) /\
    run s (callback_query c) e = (Returns tt, w) /\
    sent w =
      [ send_message ADMIN_ID admin_summary None (Some "Markdown");
        edit_message_text
          (Some (gettext (locale e) "confirmation_thanks_message"))
          (cb_chat_id c) (Received (cb_message_id c)) (Some "Markdown");
        answer_callback_query None ] /\
    store w = fresh /\
    forall m' e',
      transport e' 0 = None ->
      step (store w) (start_command m') e'
      = Storage (Some waiting_for_language) no_data.
Proof.
  intros Hr Hs Hc H0 H1 H2.
  destruct (reachable_order_present s Hr Hs) as [d Hd].
  apply String.eqb_eq in Hc.
  destruct s as [st dt]. tidy. subst st.
  exists d. eexists. eexists.
  split; [ exact Hd | ]. split; [ reflexivity | ].
  open_handlers. tidy. rewrite Hd. follow.
  repeat split.
  intros m' e' H0'. follow. reflexivity.
Qed.

(** C2: while [active], whenever the completion call or the handling of its
    result fails (a timeout or any other exception), and the transport
    delivers the working indicator and the error report: the handler's list
    loses exactly the user turn it had just appended, the stored history is
    the one from before the message, the indicator is edited to the localized
    timeout or error message, the state stays [active], and the provider was
    called once. *)
Theorem adapter_failure_rolls_back s e m x :
  state s = Some active ->
  adapter_failure e (request_for s m) x ->
  transport e 0 = None -> transport e 1 = None ->
  exists w,
    run s (text_message m) e = (Returns tt, w) /\
    history_var w = history_of (data s) /\
    history (data (store w)) = Some (history_of (data s)) /\
    lang (data (store w)) = lang (data s) /\
    state (store w) = Some active /\
    sent w =
      [ send_message (chat_id m) (gettext (locale e) "thinking_message")
                     None None;
        edit_message_text (Some (gettext (locale e) (error_key x)))
                          (chat_id m) (Delivered 0) None ] /\
    requests w = [request_for s m].
Proof.
  intros Hs Hf H0 H1.
  destruct s as [st d]. tidy. subst st. unfold request_for in *. tidy.
  destruct Hf as [ x Hp | c tc tcs Hp Hn Hj | c tc tcs v Hp Hn Hj Hv ].
  - destruct x; eexists; open_handlers; follow; repeat split.
  - apply String.eqb_eq in Hn.
    eexists. open_handlers. follow. repeat split.
  - apply String.eqb_eq in Hn.
    destruct v; try (exfalso; eapply Hv; reflexivity);
      eexists; open_handlers; follow; repeat split.
Qed.

(** C6: while [active], when the provider answers with a tool call named
    [create_hookah_order] whose arguments decode to an object, and the
    transport delivers the three calls: the decoded object is stored as
    [order_details], the summary shown carries the value of each of the six
    fields, the state becomes [confirmation], the stored history is untouched
    (no assistant turn is added, to it or to the handler's list), and the
    provider was called once. *)
Theorem extraction_enters_confirmation s e m c tc tcs d :
  state s = Some active ->
  provider e (request_for s m) = Replies c (tc :: tcs) ->
  tc_name tc = "create_hookah_order" ->
  json_loads (tc_arguments tc) = Some (JObj d) ->
  transport e 0 = None -> transport e 1 = None -> transport e 2 = None ->
  let summary :=
    summary_text (locale e) (dict_get d) (user_link (from_user m)) in
  exists w,
    run s (text_message m) e = (Returns tt, w) /\
    store w =
      Storage (Some confirmation)
              (UserData (lang (data s)) (history (data s)) (Some (JObj d))) /\
    sent w =
      [ send_message (chat_id m) (gettext (locale e) "thinking_message")
                     None None;
        send_message (chat_id m) summary
                     (Some (confirm_keyboard (locale e))) (Some "Markdown");
        delete_message (chat_id m) (Delivered 0) ] /\
    (forall k, In k required -> contains summary (str (dict_get d k))) /\
    history_var w = request_for s m /\
    requests w = [request_for s m].
Proof.
  intros Hs Hp Hn Hj H0 H1 H2.
  destruct s as [st dt]. tidy. subst st. unfold request_for in *. tidy.
  apply String.eqb_eq in Hn.
  eexists. open_handlers. follow.
  repeat split.
  intros k Hk. unfold summary_text.
  repeat (destruct Hk as [ <- | Hk ]; [ find_substring | ]).
  destruct Hk.
Qed.

(** C9, as the code has it: while [active], when the first tool call of the
    reply has another name than [create_hookah_order], [handle_tool_call]
    does nothing; with the transport delivering the two calls, the only
    transport calls are the working indicator and its deletion, and the
    storage entry is left as it was: no order stored, state [active], and the
    session's history is the one from before the message. The user turn is
    appended to the handler's own copy of the history only, where no
    assistant turn follows it and it is not popped; that copy is never
    stored, so the turn is in no history once the handler has returned. *)
Theorem foreign_tool_call_is_ignored s e m c tc tcs :
  state s = Some active ->
  provider e (request_for s m) = Replies c (tc :: tcs) ->
  tc_name tc <> "create_hookah_order" ->
  transport e 0 = None -> transport e 1 = None ->
  (forall w, handle_tool_call e m tc w = (Returns tt, w)) /\
  exists w,
    run s (text_message m) e = (Returns tt, w) /\
    store w = s /\
    history (data (store w)) = history (data s) /\
    sent w =
      [ send_message (chat_id m) (gettext (locale e) "thinking_message")
                     None None;
        delete_message (chat_id m) (Delivered 0) ] /\
    history_var w =
      (history_of (data s) ++ [user_turn (lang_of (data s)) m])%list /\
    requests w = [request_for s m].
Proof.
  intros Hs Hp Hn H0 H1.
  apply String.eqb_neq in Hn.
  split.
  - intros w. unfold handle_tool_call. rewrite Hn. reflexivity.
  - destruct s as [st dt]. tidy. subst st. unfold request_for in *. tidy.
    eexists. open_handlers. follow. repeat split.
Qed.

(** C3, as the code has it: [order_details] is only ever stored when the
    arguments of a [create_hookah_order] call decode, and it is the decoded
    value, whatever fields it has; when the arguments are malformed JSON,
    nothing is stored, the user turn is rolled back, the error message is
    shown and the state stays [active]. *)
Theorem order_details_stored_when_decoded :
  (forall s u e v,
      order_details (data (step s u e)) = Some v ->
      order_details (data s) <> Some v ->
      exists m c tc tcs,
        u = text_message m /\
        state s = Some active /\
        provider e (request_for s m) = Replies c (tc :: tcs) /\
        tc_name tc = "create_hookah_order" /\
        json_loads (tc_arguments tc) = Some v)
  /\
  (forall s e m c tc tcs,
      state s = Some active ->
      provider e (request_for s m) = Replies c (tc :: tcs) ->
      tc_name tc = "create_hookah_order" ->
      json_loads (tc_arguments tc) = None ->
      transport e 0 = None -> transport e 1 = None ->
      exists w,
        run s (text_message m) e = (Returns tt, w) /\
        store w =
          Storage (Some active)
                  (UserData (lang (data s)) (Some (history_of (data s)))
                            (order_details (data s))) /\
        sent w =
          [ send_message (chat_id m) (gettext (locale e) "thinking_message")
                         None None;
            edit_message_text (Some (gettext (locale e) "error_message"))
                              (chat_id m) (Delivered 0) None ]).
Proof.
  split.
  - intros [st d] u e v. unfold request_for. tidy.
    destruct u as [m | m | c].
    + open_handlers. crunch; intros Hv Hd; congruence.
    + destruct st as [[ | | ] | ];
        try (open_handlers; tidy; intros Hv Hd; congruence).
      open_handlers.
      crunch; intros Hv Hd; try congruence;
        injection Hv as <-;
        match goal with
        | Hn : String.eqb _ _ = true |- _ => apply String.eqb_eq in Hn
        end;
        eauto 10.
    + destruct st as [[ | | ] | ];
        open_handlers; crunch; intros Hv Hd; congruence.
  - intros [st d] e m c tc tcs Hs Hp Hn Hj H0 H1.
    unfold request_for in *. tidy. subst st.
    apply String.eqb_eq in Hn.
    eexists. open_handlers. follow. repeat split.
Qed.

(** C4, as the code has it: on an edit press while confirming, with the
    transport delivering the three calls, exactly one assistant
    clarification turn is appended to the stored history and the state
    becomes [active]; [order_details] is left as it was (the next extraction
    overwrites it). A confirm press is not handled while [active], so no
    confirmation happens before a fresh extraction. *)
Theorem edit_order_returns_to_active s e c :
  state s = Some confirmation ->
  cb_data c = "edit_order" ->
  transport e 0 = None -> transport e 1 = None -> transport e 2 = None ->
  exists w,
    run s (callback_query c) e = (Returns tt, w) /\
    store w =
      Storage (Some active)
              (UserData (lang (data s))
                        (Some (history_of (data s) ++ [edit_turn])%list)
                        (order_details (data s))) /\
    forall c' e',
      cb_data c' = "confirm_order" ->
      run (store w) (callback_query c') e' = (Returns tt, enter e' (store w)).
Proof.
  intros Hs Hc H0 H1 H2.
  destruct s as [st d]. tidy. subst st.
  assert (Hc1 : String.eqb (cb_data c) "confirm_order" = false)
    by (rewrite Hc; reflexivity).
  assert (Hc2 : String.eqb (cb_data c) "edit_order" = true)
    by (rewrite Hc; reflexivity).
  eexists. open_handlers. follow.
  repeat split.
Qed.

(** C5, as the code has it: on a language choice whose code is none of
    [ru], [en], [pl], with the transport delivering the three calls, the
    session's [lang] is the received code itself, the seeded system turn is
    the prompt of the default language (Russian), the state becomes
    [active], and the handler ends normally with the welcome message sent. *)
Theorem unsupported_language_is_kept s e c prefix code rest :
  state s = Some waiting_for_language ->
  startswith (cb_data c) "lang_" = true ->
  split "_" (cb_data c) = prefix :: code :: rest ->
  assoc code lang_map = None ->
  transport e 0 = None -> transport e 1 = None -> transport e 2 = None ->
  exists w,
    run s (callback_query c) e = (Returns tt, w) /\
    store w =
      Storage (Some active)
              (UserData (Some code)
                        (Some [Turn system (Some (get_system_prompt "ru"))])
                        (order_details (data s))) /\
    contains (get_system_prompt "ru") (language_rule "русском") /\
    sent w =
      [ delete_message (cb_chat_id c) (Received (cb_message_id c));
        answer_callback_query None;
        send_message (user_id (cb_from_user c))
                     (gettext code "welcome_message")
                     (Some ReplyKeyboardRemove) None ].
Proof.
  intros Hs Hp Hsplit Hcode H0 H1 H2.
  destruct s as [st d]. tidy. subst st.
  eexists. open_handlers. follow.
  rewrite (prompt_of_unknown_code code Hcode).
  repeat split.
  apply (prompt_contains_rule "ru").
Qed.

(** C8: a [/start] in any state, once the language prompt is delivered,
    leaves an empty session in [waiting_for_language]; a supported language
    choice after it (the prompt's deletion and the callback's answer
    accepted) sets [lang] to that code, makes the history exactly one system
    turn holding the prompt, which names that language, and makes the
    state [active]. *)
Theorem start_then_language_choice s e1 e2 m c code name :
  In (code, name) lang_map ->
  cb_data c = "lang_" ++ code ->
  transport e1 0 = None ->
  transport e2 0 = None -> transport e2 1 = None ->
  let s1 := step s (start_command m) e1 in
  let s2 := step s1 (callback_query c) e2 in
  s1 = Storage (Some waiting_for_language) no_data /\
  s2 = Storage (Some active)
               (UserData (Some code)
                         (Some [Turn system (Some (get_system_prompt code))])
                         None) /\
  contains (get_system_prompt code) (language_rule name).
Proof.
  intros Hin Hc H0 H1 H2 s1 s2.
  assert (E1 : s1 = Storage (Some waiting_for_language) no_data).
  { subst s1. open_handlers. follow. reflexivity. }
  split; [ exact E1 | ].
  subst s2. rewrite E1. clear E1 s1.
  assert (Hname : get_default lang_map code "русском" = name /\
                  startswith (cb_data c) "lang_" = true /\
                  split "_" (cb_data c) = ["lang"; code]).
  { rewrite Hc.
    destruct Hin as [ E | [ E | [ E | [] ] ] ];
      injection E as <- <-; repeat split. }
  destruct Hname as [Hname [Hp Hsplit]].
  split.
  - open_handlers. follow. destruct (transport e2 2); reflexivity.
  - rewrite <- Hname. apply prompt_contains_rule.
Qed.

(** C1: the pairing of the stored history, at the input where the code
    breaks it. In an English session the provider answers with plain text;
    the assistant turn is appended and stored; the edit that delivers the
    reply raises; the [except] branch reports the error and pops the last
    turn, which is that assistant turn. The user sees the error message,
    the state reached is [active] and its history ends with the user turn,
    unanswered and not rolled back. *)
Theorem undelivered_reply_keeps_user_turn :
  let e := second_call_fails (Replies (Some "Hello!") []) in
  let s := step (session "en") (text_message (says "hi")) e in
  reachable s /\
  sent (snd (run (session "en") (text_message (says "hi")) e)) =
    [ send_message 42 (gettext "en" "thinking_message") None None;
      edit_message_text (Some (gettext "en" "error_message")) 42 (Delivered 0)
                        None ] /\
  state s = Some active /\
  history (data s) =
    Some [ Turn system (Some (get_system_prompt "en"));
           Turn user (Some "hi (Reminder: reply in English only)") ] /\
  ~ history_paired s.
Proof.
  intros e s. split; [ | split; [ | split; [ | split ] ] ].
  - apply reachable_step, session_en_reachable.
  - reflexivity.
  - reflexivity.
  - reflexivity.
  - intros [_ [H _]]. exact H.
Qed.

(** ** More of what the handlers do *)

Lemma well_formed_step s u e : well_formed s -> well_formed (step s u e).
Proof.
  unfold well_formed, seeded, order_present. intros H.
  destruct s as [st d]. tidy. destruct u as [m | m | c].
  - open_handlers. crunch; reflexivity.
  - destruct st as [[ | | ] | ]; try exact H.
    destruct H as [code [rest [Hl Hh]]].
    open_handlers.
    crunch; unfold history_of; rewrite ?Hh; cbn [app];
      repeat split; eauto; discriminate.
  - destruct st as [[ | | ] | ]; try exact H.
    + open_handlers. crunch; eauto.
    + destruct H as [[code [rest [Hl Hh]]] Ho].
      destruct (Ho eq_refl) as [o Hd].
      open_handlers. tidy. rewrite Hd.
      crunch; unfold history_of; rewrite ?Hh; cbn [app];
        repeat split; eauto.
Qed.

(** X1: every reachable session is well formed. With no state or while the
    language is awaited the data is empty; once [active] or confirming, [lang]
    is set and the stored history opens with the system turn holding the
    prompt of that very code, so the defaults of [user_data.get] in
    [handle_conversation] and [process_edit_order] are never taken; and while
    confirming the order is a decoded object. *)
Theorem reachable_well_formed s : reachable s -> well_formed s.
Proof.
  induction 1 as [ | s u e _ IH ].
  - reflexivity.
  - now apply well_formed_step.
Qed.

Lemma reachable_active_seeded s :
  reachable s -> state s = Some active -> seeded (data s).
Proof.
  intros Hr.
  assert (H : well_formed s).
  { induction Hr as [ | s u e _ IH ];
      [ reflexivity | now apply well_formed_step ]. }
  intros Hs. unfold well_formed in H. rewrite Hs in H. exact H.
Qed.

(** X2: while [active], when the provider answers with text and no tool
    call, and the transport delivers the working indicator and the reply: the
    stored history gains the user turn (the message, a space, the reminder of
    the session's language) and the assistant turn with the reply, in that
    order; the indicator is edited into the reply; language, order and state
    are left as they were; the provider was called once, with the history up
    to the user turn. *)
Theorem text_reply_is_appended s e m reply :
  state s = Some active ->
  provider e (request_for s m) = Replies reply [] ->
  transport e 0 = None -> transport e 1 = None ->
  exists w,
    run s (text_message m) e = (Returns tt, w) /\
    store w =
      Storage (Some active)
        (UserData (lang (data s))
           (Some (history_of (data s)
                  ++ [user_turn (lang_of (data s)) m; Turn assistant reply])%list)
           (order_details (data s))) /\
    sent w =
      [ send_message (chat_id m) (gettext (locale e) "thinking_message")
                     None None;
        edit_message_text reply (chat_id m) (Delivered 0) None ] /\
    requests w = [request_for s m].
Proof.
  intros Hs Hp H0 H1.
  destruct s as [st d]. tidy. subst st. unfold request_for in *. tidy.
  eexists. open_handlers. follow.
  rewrite <- app_assoc. cbn [app]. repeat split.
Qed.

(** X3: an update makes at most one request to the provider, and only a text
    message met in state [active] makes one; the request is then the stored
    history followed by the user turn. No other handler, and no message in
    another state, reaches the provider. *)
Theorem provider_called_at_most_once s u e :
  requests (snd (run s u e)) = [] \/
  exists m,
    u = text_message m /\
    state s = Some active /\
    requests (snd (run s u e)) = [request_for s m].
Proof.
  destruct s as [st d]. unfold request_for. tidy.
  destruct u as [m | m | c].
  - left. open_handlers. crunch; reflexivity.
  - destruct st as [[ | | ] | ]; try (left; reflexivity).
    open_handlers. crunch; eauto.
  - left. destruct st as [[ | | ] | ]; try reflexivity;
      open_handlers; crunch; reflexivity.
Qed.

Ltac pick_case :=
  first [ solve [ eauto 8 ] | left; solve [ eauto 8 ] | right; pick_case ].

(** X4: the transitions of the conversation. An update leaves the state as
    it was, or it is one of: [/start], to [waiting_for_language] (to no state
    when the prompt is not delivered); a language choice, from
    [waiting_for_language] to [active]; a text message, from [active] to
    [confirmation]; an edit press, from [confirmation] to [active]; a confirm
    press, from [confirmation] to no state. *)
Theorem state_transitions s u e :
  state (step s u e) = state s \/
  (exists m, u = start_command m /\
     (state (step s u e) = Some waiting_for_language \/
      state (step s u e) = None)) \/
  (exists c, u = callback_query c /\
     startswith (cb_data c) "lang_" = true /\
     state s = Some waiting_for_language /\
     state (step s u e) = Some active) \/
  (exists m, u = text_message m /\
     state s = Some active /\ state (step s u e) = Some confirmation) \/
  (exists c, u = callback_query c /\ cb_data c = "edit_order" /\
     state s = Some confirmation /\ state (step s u e) = Some active) \/
  (exists c, u = callback_query c /\ cb_data c = "confirm_order" /\
     state s = Some confirmation /\ state (step s u e) = None).
Proof.
  destruct s as [st d]. tidy. destruct u as [m | m | c].
  - right. left. exists m. split; [ reflexivity | ].
    open_handlers. crunch; auto.
  - destruct st as [[ | | ] | ]; try (left; reflexivity).
    open_handlers. crunch; pick_case.
  - destruct st as [[ | | ] | ]; try (left; reflexivity);
      open_handlers; crunch;
      repeat match goal with
             | H : String.eqb _ _ = true |- _ => apply String.eqb_eq in H
             end;
      pick_case.
Qed.

(** X5: [cmd_start] drops the session before it sends anything. Whatever the
    state and the data were, the data is empty afterwards; the state is
    [waiting_for_language] when the language prompt is delivered, and there
    is no state at all when its delivery raises: the old session is gone
    either way. *)
Theorem start_always_clears s e m :
  data (store (snd (run s (start_command m) e))) = no_data /\
  match transport e 0 with
  | None =>
      fst (run s (start_command m) e) = Returns tt /\
      state (store (snd (run s (start_command m) e)))
      = Some waiting_for_language
  | Some x =>
      fst (run s (start_command m) e) = Raised x /\
      state (store (snd (run s (start_command m) e))) = None /\
      sent (snd (run s (start_command m) e)) = []
  end.
Proof.
  open_handlers. tidy.
  destruct (transport e 0); tidy; repeat split.
Qed.

(** X6: the session's language only changes by a language choice. After any
    update, [lang] is what it was, or the data was dropped altogether, or the
    update was a [lang_] callback met in [waiting_for_language]. *)
Theorem lang_changes_only_by_choice s u e :
  lang (data (step s u e)) = lang (data s) \/
  data (step s u e) = no_data \/
  exists c,
    u = callback_query c /\
    state s = Some waiting_for_language /\
    startswith (cb_data c) "lang_" = true.
Proof.
  destruct s as [st d]. tidy. destruct u as [m | m | c].
  - right. left. open_handlers. crunch; reflexivity.
  - left. destruct st as [[ | | ] | ]; try reflexivity.
    open_handlers. crunch; reflexivity.
  - destruct st as [[ | | ] | ]; try (left; reflexivity);
      open_handlers; crunch; pick_case.
Qed.

(** X7: the session is only disposed of when all three transport calls of
    [process_confirm_order] are delivered. When the [k]-th is the first to
    raise, the exception leaves the handler and the storage entry is as it
    was (still confirming, with the order), while the calls before it have
    been made: from [k = 1] on the operator already has the order, and a
    second confirm press will forward it again. *)
Theorem confirm_failure_keeps_session s e c d k x :
  state s = Some confirmation ->
  order_details (data s) = Some (JObj d) ->
  cb_data c = "confirm_order" ->
  k < 3 ->
  (forall j, j < k -> transport e j = None) ->
  transport e k = Some x ->
  exists w,
    run s (callback_query c) e = (Raised x, w) /\
    store w = s /\
    sent w =
      firstn k
        [ send_message ADMIN_ID
            (admin_summary_text (dict_get d) (user_link (cb_from_user c)))
            None (Some "Markdown");
          edit_message_text
            (Some (gettext (locale e) "confirmation_thanks_message"))
            (cb_chat_id c) (Received (cb_message_id c)) (Some "Markdown");
          answer_callback_query None ].
Proof.
  intros Hs Hd Hc Hk Hbefore Hx.
  apply String.eqb_eq in Hc.
  destruct s as [st dt]. tidy. subst st.
  destruct k as [ | [ | [ | k ] ] ]; try lia.
  - eexists. open_handlers. tidy. rewrite Hd. follow. repeat split.
  - assert (H0 : transport e 0 = None) by (apply Hbefore; lia).
    eexists. open_handlers. tidy. rewrite Hd. follow. repeat split.
  - assert (H0 : transport e 0 = None) by (apply Hbefore; lia).
    assert (H1 : transport e 1 = None) by (apply Hbefore; lia).
    eexists. open_handlers. tidy. rewrite Hd. follow. repeat split.
Qed.

Lemma split_not_nil (c : ascii) (s : string) : split c s <> [].
Proof.
  destruct s as [ | a r ]; cbn; [ discriminate | ].
  destruct (Ascii.eqb a c); [ discriminate | ].
  destruct (split c r); discriminate.
Qed.

Lemma startswith_lang (d : string) :
  startswith d "lang_" = true -> exists r, d = "lang_" ++ r.
Proof.
  unfold startswith. intros H.
  do 5 (destruct d as [ | ? d ]; cbn in H; [ discriminate | ];
        match type of H with
        | (if ?t then _ else _) = true =>
            destruct t as [ <- | ]; [ | discriminate ]
        end).
  exists d. reflexivity.
Qed.

(** X8: on every callback the [lang_] filter accepts, [split('_')[1]] exists:
    the code is what follows [lang_] up to the next underscore (or the end).
    With the prompt's deletion and the callback's answer accepted, that code
    becomes the session's [lang], the history becomes the one system turn
    with the prompt for it, and the state becomes [active]. *)
Theorem language_filter_gives_code s e c :
  state s = Some waiting_for_language ->
  startswith (cb_data c) "lang_" = true ->
  exists r code rest,
    cb_data c = "lang_" ++ r /\
    split "_" r = code :: rest /\
    (transport e 0 = None -> transport e 1 = None ->
     state (step s (callback_query c) e) = Some active /\
     lang (data (step s (callback_query c) e)) = Some code /\
     history (data (step s (callback_query c) e))
     = Some [Turn system (Some (get_system_prompt code))]).
Proof.
  intros Hs Hp.
  destruct (startswith_lang _ Hp) as [r Hr].
  destruct (split "_" r) as [ | code rest ] eqn:Hsplit;
    [ now apply split_not_nil in Hsplit | ].
  exists r, code, rest. split; [ exact Hr | ]. split; [ exact Hsplit | ].
  intros H0 H1.
  assert (Hd : split "_" (cb_data c) = "lang" :: code :: rest).
  { rewrite Hr. change (split "_" ("lang_" ++ r)) with ("lang" :: split "_" r).
    now rewrite Hsplit. }
  destruct s as [st d]. tidy. subst st.
  open_handlers. follow. destruct (transport e 2); repeat split.
Qed.

(** X9: when the deletion of the language prompt or the answer to the
    callback raises, [process_language_callback] has stored nothing: the
    exception leaves the handler and the session is still awaiting a language,
    with the data it had. *)
Theorem language_choice_undelivered s e c x :
  state s = Some waiting_for_language ->
  startswith (cb_data c) "lang_" = true ->
  transport e 0 = Some x \/ (transport e 0 = None /\ transport e 1 = Some x) ->
  exists w,
    run s (callback_query c) e = (Raised x, w) /\ store w = s.
Proof.
  intros Hs Hp Hx.
  destruct (startswith_lang _ Hp) as [r Hr].
  destruct (split "_" r) as [ | code rest ] eqn:Hsplit;
    [ now apply split_not_nil in Hsplit | ].
  assert (Hd : split "_" (cb_data c) = "lang" :: code :: rest).
  { rewrite Hr. change (split "_" ("lang_" ++ r)) with ("lang" :: split "_" r).
    now rewrite Hsplit. }
  destruct s as [st d]. tidy. subst st.
  destruct Hx as [ H0 | [H0 H1] ];
    eexists; open_handlers; follow; split; reflexivity.
Qed.

(** X10: of a reply with tool calls only the first call counts: its text
    content and every later tool call are never read. The run is the one the
    same world would give with the provider answering that first call alone
    and no text. *)
Theorem only_first_tool_call_counts s e m c tc tcs :
  provider e (request_for s m) = Replies c (tc :: tcs) ->
  run s (text_message m) e
  = run s (text_message m)
        {| transport := transport e;
           provider := fun _ => Replies None [tc];
           locale := locale e |}.
Proof.
  intros Hp. destruct s as [st d]. unfold request_for in Hp. tidy.
  destruct st as [[ | | ] | ]; try reflexivity.
  open_handlers. cbn [transport provider locale]. tidy.
  destruct (transport e 0); [ reflexivity | ].
  tidy. rewrite Hp. reflexivity.
Qed.

(** X11: arguments that decode to something other than an object (a list, a
    number, a string, [null]) are stored as [order_details] before the summary
    is built; reading the first field then raises, so with the working
    indicator and the error report delivered the turn ends as a failure: the
    error message is shown, the history is rolled back and the state stays
    [active], with the decoded value left in the session data. *)
Theorem non_dict_arguments_are_stored s e m c tc tcs v :
  state s = Some active ->
  provider e (request_for s m) = Replies c (tc :: tcs) ->
  tc_name tc = "create_hookah_order" ->
  json_loads (tc_arguments tc) = Some v ->
  (forall d, v <> JObj d) ->
  transport e 0 = None -> transport e 1 = None ->
  exists w,
    run s (text_message m) e = (Returns tt, w) /\
    store w =
      Storage (Some active)
        (UserData (lang (data s)) (Some (history_of (data s))) (Some v)) /\
    sent w =
      [ send_message (chat_id m) (gettext (locale e) "thinking_message")
                     None None;
        edit_message_text (Some (gettext (locale e) "error_message"))
                          (chat_id m) (Delivered 0) None ].
Proof.
  intros Hs Hp Hn Hj Hv H0 H1.
  destruct s as [st d]. tidy. subst st. unfold request_for in *. tidy.
  apply String.eqb_eq in Hn.
  destruct v; try (exfalso; eapply Hv; reflexivity);
    eexists; open_handlers; follow; repeat split.
Qed.

(** X12: when the order was extracted and its summary delivered, but the
    deletion of the working indicator raises, the [except] branch still runs
    (its error report delivered): the indicator is edited into the timeout or
    error message and the user turn is popped, yet the order stays stored and
    the state stays [confirmation], with the summary and its buttons shown. *)
Theorem undeleted_indicator_reports_error s e m c tc tcs d x :
  state s = Some active ->
  provider e (request_for s m) = Replies c (tc :: tcs) ->
  tc_name tc = "create_hookah_order" ->
  json_loads (tc_arguments tc) = Some (JObj d) ->
  transport e 0 = None -> transport e 1 = None ->
  transport e 2 = Some x -> transport e 3 = None ->
  exists w,
    run s (text_message m) e = (Returns tt, w) /\
    store w =
      Storage (Some confirmation)
        (UserData (lang (data s)) (Some (history_of (data s)))
                  (Some (JObj d))) /\
    sent w =
      [ send_message (chat_id m) (gettext (locale e) "thinking_message")
                     None None;
        send_message (chat_id m)
          (summary_text (locale e) (dict_get d) (user_link (from_user m)))
          (Some (confirm_keyboard (locale e))) (Some "Markdown");
        edit_message_text (Some (gettext (locale e) (error_key x)))
                          (chat_id m) (Delivered 0) None ].
Proof.
  intros Hs Hp Hn Hj H0 H1 H2 H3.
  destruct s as [st dt]. tidy. subst st. unfold request_for in *. tidy.
  apply String.eqb_eq in Hn.
  destruct x; eexists; open_handlers; follow; repeat split.
Qed.

Lemma paired_last h t : paired (h ++ [t]) -> turn_role t <> user.
Proof.
  induction h as [ | a h IH ]; cbn [app paired].
  - intros [H _] E. rewrite E in H. exact H.
  - intros [_ H]. auto.
Qed.

(** X13: as long as the transport delivers the second call of every
    conversation turn (the reply, the summary or the error report), the stored
    history stays paired: every user turn is directly followed by an assistant
    turn, and the history never ends with a user turn. *)
Theorem paired_while_replies_are_delivered s :
  reachable_delivering s ->
  history_paired s /\
  forall h t, history_of (data s) = (h ++ [t])%list -> turn_role t <> user.
Proof.
  intros H. apply delivering_history_paired in H.
  split; [ exact H | ].
  intros h t E. unfold history_paired in H. rewrite E in H.
  now apply paired_last in H.
Qed.

Lemma contains_left (a rest sub : string) :
  contains a sub -> contains (a ++ rest) sub.
Proof.
  intros [before [after H]]. exists before, (after ++ rest).
  rewrite H, !append_assoc. reflexivity.
Qed.

Ltac find_in_line H :=
  repeat first [ solve [ apply contains_left; exact H ] | apply contains_skip ].

(** X14: whatever the language code, the system prompt names the function
    [create_hookah_order] and each of the six fields the schema in [TOOLS]
    requires, under the very names of the schema. *)
Theorem prompt_names_schema (lang_code : string) :
  Forall (contains (get_system_prompt lang_code))
         ("create_hookah_order" :: required).
Proof.
  unfold get_system_prompt, required.
  cbn [String.concat app prompt_head prompt_tail].
  repeat apply Forall_cons; try apply Forall_nil.
  - assert (H : contains
      "КРАЙНЕ ВАЖНО: Как только ты соберешь ВСЮ необходимую информацию, ты ДОЛЖЕН вызвать функцию `create_hookah_order`."
      "create_hookah_order").
    { exists "КРАЙНЕ ВАЖНО: Как только ты соберешь ВСЮ необходимую информацию, ты ДОЛЖЕН вызвать функцию `", "`.".
      reflexivity. }
    find_in_line H.
  - assert (H : contains "1. arrival_time: Время и дата прибытия."
                         "arrival_time").
    { exists "1. ", ": Время и дата прибытия.". reflexivity. }
    find_in_line H.
  - assert (H : contains
      "2. duration_hours: Продолжительность мероприятия в часах."
      "duration_hours").
    { exists "2. ", ": Продолжительность мероприятия в часах.". reflexivity. }
    find_in_line H.
  - assert (H : contains
      "3. hookah_masters_count: Количество кальянных мастеров."
      "hookah_masters_count").
    { exists "3. ", ": Количество кальянных мастеров.". reflexivity. }
    find_in_line H.
  - assert (H : contains "4. hookahs_count: Количество кальянов."
                         "hookahs_count").
    { exists "4. ", ": Количество кальянов.". reflexivity. }
    find_in_line H.
  - assert (H : contains "5. location: Полный адрес мероприятия." "location").
    { exists "5. ", ": Полный адрес мероприятия.". reflexivity. }
    find_in_line H.
  - assert (H : contains
      "6. phone_number: Контактный номер телефона пользователя."
      "phone_number").
    { exists "6. ", ": Контактный номер телефона пользователя.". reflexivity. }
    find_in_line H.
Qed.

Ltac grown :=
  unfold extends_by; cbn [history_of history];
  first [ left; reflexivity
        | right; exists []; split; [ now rewrite app_nil_r | cbn; lia ]
        | right; eexists; split;
          [ rewrite <- ?app_assoc; reflexivity | cbn; lia ] ].

(** X15: once a language is chosen, an update never shortens or rewrites the
    stored history: either the data is dropped altogether ([/start], a
    delivered confirmation), or the history afterwards is the one from before
    with at most two turns added at its end. *)
Theorem stored_history_only_grows s u e :
  state s = Some active \/ state s = Some confirmation ->
  data (step s u e) = no_data \/
  extends_by 2 (history_of (data (step s u e))) (history_of (data s)).
Proof.
  intros Hs. destruct s as [st d]. tidy. destruct u as [m | m | c].
  - left. open_handlers. crunch; reflexivity.
  - destruct Hs as [ -> | -> ]; [ | grown ].
    open_handlers. crunch; grown.
  - destruct Hs as [ -> | -> ]; [ grown | ].
    open_handlers. crunch; grown.
Qed.

(** X16: the message that triggers an extraction is never stored. After an
    extraction (the provider answering a message with a [create_hookah_order]
    call whose arguments decode to an object) and an edit press, all calls
    delivered, the session is [active] again with the order still in its data,
    and its history is the one from before that message with the
    clarification turn added: the message itself is in no turn of it. *)
Theorem triggering_message_is_not_stored s e1 e2 m c1 tc tcs d c :
  state s = Some active ->
  provider e1 (request_for s m) = Replies c1 (tc :: tcs) ->
  tc_name tc = "create_hookah_order" ->
  json_loads (tc_arguments tc) = Some (JObj d) ->
  transport e1 0 = None -> transport e1 1 = None -> transport e1 2 = None ->
  cb_data c = "edit_order" ->
  transport e2 0 = None -> transport e2 1 = None -> transport e2 2 = None ->
  step (step s (text_message m) e1) (callback_query c) e2
  = Storage (Some active)
      (UserData (lang (data s))
                (Some (history_of (data s) ++ [edit_turn])%list)
                (Some (JObj d))).
Proof.
  intros Hs Hp Hn Hj H0 H1 H2 Hc G0 G1 G2.
  destruct s as [st dt]. tidy. subst st. unfold request_for in *. tidy.
  apply String.eqb_eq in Hn.
  assert (Hc1 : String.eqb (cb_data c) "confirm_order" = false)
    by (rewrite Hc; reflexivity).
  assert (Hc2 : String.eqb (cb_data c) "edit_order" = true)
    by (rewrite Hc; reflexivity).
  open_handlers. follow. reflexivity.
Qed.

(** X17: in every reachable [active] session, what the provider is sent for
    a message opens with the system prompt of the session's language and ends
    with the user turn built for that same language: the message, a space,
    and the language's reminder (nothing after the space when the code has no
    reminder). *)
Theorem request_opens_with_prompt s m :
  reachable s ->
  state s = Some active ->
  exists code rest,
    lang (data s) = Some code /\
    request_for s m =
      Turn system (Some (get_system_prompt code))
      :: (rest ++ [user_turn code m])%list.
Proof.
  intros Hr Hs.
  destruct (reachable_active_seeded s Hr Hs) as [code [rest [Hl Hh]]].
  exists code, rest. split; [ exact Hl | ].
  unfold request_for, history_of, lang_of, user_turn.
  rewrite Hl, Hh. reflexivity.
Qed.

(** X18: a failed turn leaves no trace. In a reachable [active] session, when
    the completion call raises or the arguments of a [create_hookah_order]
    call are malformed JSON, and the working indicator and the error report
    are delivered, the storage entry after the turn is exactly the one before
    it: the user can send the message again as if nothing had happened. *)
Theorem failed_turn_leaves_no_trace s e m :
  reachable s ->
  state s = Some active ->
  (exists x, provider e (request_for s m) = Raises x) \/
  (exists c tc tcs,
      provider e (request_for s m) = Replies c (tc :: tcs) /\
      tc_name tc = "create_hookah_order" /\
      json_loads (tc_arguments tc) = None) ->
  transport e 0 = None -> transport e 1 = None ->
  step s (text_message m) e = s.
Proof.
  intros Hr Hs Hf H0 H1.
  destruct (reachable_active_seeded s Hr Hs) as [code [rest [Hl Hh]]].
  destruct s as [st [l h o]]. tidy. subst st l h.
  unfold request_for in Hf. tidy.
  destruct Hf as [ [x Hp] | [c [tc [tcs [Hp [Hn Hj]]]]] ].
  - destruct x; open_handlers; follow; reflexivity.
  - apply String.eqb_eq in Hn. open_handlers. follow. reflexivity.
Qed.

End Bot.

(** ** The properties at the sample inputs *)

Abbreviation sample_run :=
  (run sample_loads sample_gettext sample_str_container sample_admin).
Abbreviation sample_step :=
  (step sample_loads sample_gettext sample_str_container sample_admin).
Abbreviation sample_reachable :=
  (reachable sample_loads sample_gettext sample_str_container sample_admin).

Lemma session_reachable : sample_reachable (session "en").
Proof. apply session_en_reachable. Qed.

(** Scenario B: the provider answers the order message with a full tool
    call. *)
Lemma confirming_reachable : sample_reachable (confirming full_order).
Proof.
  change (confirming full_order)
    with (sample_step (session "en") (text_message order_message)
            (quiet (calls_tool "create_hookah_order" full_payload))).
  apply reachable_step, session_reachable.
Qed.

(** C2 at a timeout of the provider in an English session: the stored history
    is again the system turn alone and the timeout message is shown. *)
Lemma adapter_failure_rolls_back_at_timeout :
  exists w,
    sample_run (session "en") (text_message (says "hi"))
               (quiet (Raises TimeoutError)) = (Returns tt, w) /\
    history (data (store w))
      = Some [Turn system (Some (get_system_prompt "en"))] /\
    state (store w) = Some active /\
    sent w =
      [ send_message 42 "thinking_message" None None;
        edit_message_text (Some "timeout_error_message") 42 (Delivered 0) None ] /\
    List.length (requests w) = 1.
Proof.
  destruct (adapter_failure_rolls_back sample_loads sample_gettext
              sample_str_container sample_admin (session "en")
              (quiet (Raises TimeoutError)) (says "hi") TimeoutError)
    as [w [Hrun [_ [Hh [_ [Hs [Hsent Hreq]]]]]]].
  - reflexivity.
  - apply completion_raises. reflexivity.
  - reflexivity.
  - reflexivity.
  - exists w. rewrite Hreq. repeat split; assumption.
Defined.

(** C3, counterexample: a payload with one field of the six decodes, is
    stored as it is and takes the session to [confirmation]. *)
Lemma partial_payload_is_stored :
  let s := sample_step (session "en") (text_message order_message)
             (quiet (calls_tool "create_hookah_order" partial_payload)) in
  state s = Some confirmation /\
  order_details (data s) = Some partial_order /\
  (exists d, partial_order = JObj d /\ assoc "phone_number" d = None).
Proof.
  repeat split. exists [("arrival_time", JStr "Tomorrow at 8pm")].
  split; reflexivity.
Qed.

(** C3 at a truncated payload: nothing is stored, the turn is rolled back and
    the error message is shown. *)
Lemma malformed_payload_is_rolled_back :
  exists w,
    sample_run (session "en") (text_message order_message)
               (quiet (calls_tool "create_hookah_order" "{")) = (Returns tt, w) /\
    store w = session "en" /\
    sent w =
      [ send_message 42 "thinking_message" None None;
        edit_message_text (Some "error_message") 42 (Delivered 0) None ].
Proof.
  destruct (proj2 (order_details_stored_when_decoded sample_loads sample_gettext
                     sample_str_container sample_admin)
              (session "en")
              (quiet (calls_tool "create_hookah_order" "{")) order_message
              None {| tc_name := "create_hookah_order"; tc_arguments := "{" |} [])
    as [w [Hrun [Hstore Hsent]]]; try reflexivity.
  exists w. repeat split; assumption.
Defined.

(** C4, counterexample: after the edit press the session is [active] and
    still holds the order. *)
Lemma edit_keeps_order_details :
  let s := sample_step (confirming full_order)
             (callback_query (presses "edit_order")) (quiet (Raises APIError)) in
  state s = Some active /\ order_details (data s) = Some full_order.
Proof. split; reflexivity. Qed.

(** C4 at the sample order. *)
Lemma edit_order_returns_to_active_at_sample :
  exists w,
    sample_run (confirming full_order) (callback_query (presses "edit_order"))
               (quiet (Raises APIError)) = (Returns tt, w) /\
    store w =
      Storage (Some active)
        (UserData (Some "en")
           (Some [Turn system (Some (get_system_prompt "en")); edit_turn])
           (Some full_order)).
Proof.
  destruct (edit_order_returns_to_active sample_loads sample_gettext
              sample_str_container sample_admin (confirming full_order)
              (quiet (Raises APIError)) (presses "edit_order"))
    as [w [Hrun [Hstore _]]]; try reflexivity.
  exists w. split; assumption.
Defined.

(** C5, counterexample: the code [de] is stored as the session's language,
    and it is none of the supported codes. *)
Lemma unsupported_code_is_stored :
  let s := sample_step (Storage (Some waiting_for_language) no_data)
             (callback_query (presses "lang_de")) (quiet (Raises APIError)) in
  lang (data s) = Some "de" /\ ~ In "de" (map fst lang_map).
Proof.
  split; [ reflexivity | ].
  cbn. intros [H | [H | [H | []]]]; discriminate.
Qed.

(** C5 at the code [de]. *)
Lemma unsupported_language_is_kept_at_de :
  exists w,
    sample_run (Storage (Some waiting_for_language) no_data)
               (callback_query (presses "lang_de")) (quiet (Raises APIError))
      = (Returns tt, w) /\
    store w =
      Storage (Some active)
        (UserData (Some "de")
           (Some [Turn system (Some (get_system_prompt "ru"))]) None).
Proof.
  destruct (unsupported_language_is_kept sample_loads sample_gettext
              sample_str_container sample_admin
              (Storage (Some waiting_for_language) no_data)
              (quiet (Raises APIError)) (presses "lang_de") "lang" "de" [])
    as [w [Hrun [Hstore _]]]; try reflexivity.
  exists w. split; assumption.
Defined.

(** C6 at Scenario B: the six values are stored and the summary carries the
    phone number and the duration. *)
Lemma extraction_enters_confirmation_at_sample :
  exists summary w,
    sample_run (session "en") (text_message order_message)
               (quiet (calls_tool "create_hookah_order" full_payload))
      = (Returns tt, w) /\
    store w = confirming full_order /\
    sent w =
      [ send_message 42 "thinking_message" None None;
        send_message 42 summary (Some (confirm_keyboard sample_gettext "en"))
                     (Some "Markdown");
        delete_message 42 (Delivered 0) ] /\
    contains summary "+1234567890" /\
    contains summary "3".
Proof.
  destruct (extraction_enters_confirmation sample_loads sample_gettext
              sample_str_container sample_admin (session "en")
              (quiet (calls_tool "create_hookah_order" full_payload))
              order_message None
              {| tc_name := "create_hookah_order"; tc_arguments := full_payload |}
              []
              [ ("arrival_time", JStr "Tomorrow at 8pm");
                ("duration_hours", JInt 3);
                ("hookah_masters_count", JInt 2);
                ("hookahs_count", JInt 5);
                ("location", JStr "Main St 1");
                ("phone_number", JStr "+1234567890") ])
    as [w [Hrun [Hstore [Hsent [Hin _]]]]]; try reflexivity.
  eexists. exists w.
  split; [ exact Hrun | ]. split; [ exact Hstore | ]. split; [ exact Hsent | ].
  split.
  - apply (Hin "phone_number"). cbn. auto 10.
  - apply (Hin "duration_hours"). cbn. auto 10.
Defined.

(** C7 at the sample order: what the operator receives. *)
Lemma confirm_forwards_and_disposes_at_sample :
  exists w,
    sample_run (confirming full_order) (callback_query (presses "confirm_order"))
               (quiet (Raises APIError)) = (Returns tt, w) /\
    sent w =
      [ send_message sample_admin
          ("📩 **Новый заказ!**" ++ nl ++ nl
           ++ "Когда: Tomorrow at 8pm" ++ nl
           ++ "На сколько: 3 ч." ++ nl
           ++ "Кальяны: 5 шт." ++ nl
           ++ "Мастера: 2 чел." ++ nl
           ++ "Куда: Main St 1" ++ nl
           ++ "Телефон: +1234567890" ++ nl ++ nl
           ++ "Клиент: @alice")
          None (Some "Markdown");
        edit_message_text (Some "confirmation_thanks_message") 42 (Received 7)
                          (Some "Markdown");
        answer_callback_query None ] /\
    store w = fresh.
Proof.
  destruct (confirm_forwards_and_disposes sample_loads sample_gettext
              sample_str_container sample_admin (confirming full_order)
              (quiet (Raises APIError)) (presses "confirm_order"))
    as [d [text [w [Hd [Htext [Hrun [Hsent [Hstore _]]]]]]]];
    try reflexivity.
  - apply confirming_reachable.
  - exists w. split; [ exact Hrun | ]. split; [ | exact Hstore ].
    rewrite Hsent, Htext. injection Hd as <-. reflexivity.
Defined.

(** C8 at Scenario A: [/start], then English. *)
Lemma start_then_english :
  let s1 := sample_step (confirming full_order) (start_command (says "/start"))
              (quiet (Raises APIError)) in
  let s2 := sample_step s1 (callback_query (presses "lang_en"))
              (quiet (Raises APIError)) in
  s1 = Storage (Some waiting_for_language) no_data /\
  s2 = session "en" /\
  contains (get_system_prompt "en") (language_rule "английском").
Proof.
  apply (start_then_language_choice sample_loads sample_gettext
           sample_str_container sample_admin (confirming full_order)
           (quiet (Raises APIError)) (quiet (Raises APIError))
           (says "/start") (presses "lang_en") "en" "английском");
    try reflexivity.
  cbn. auto.
Defined.

(** C9 at a tool call named [get_weather]. *)
Lemma foreign_tool_call_is_ignored_at_sample :
  exists w,
    sample_run (session "en") (text_message (says "hi"))
               (quiet (calls_tool "get_weather" "{}")) = (Returns tt, w) /\
    store w = session "en" /\
    sent w =
      [ send_message 42 "thinking_message" None None;
        delete_message 42 (Delivered 0) ] /\
    history_var w =
      [ Turn system (Some (get_system_prompt "en"));
        Turn user (Some "hi (Reminder: reply in English only)") ].
Proof.
  destruct (foreign_tool_call_is_ignored sample_loads sample_gettext
              sample_str_container sample_admin (session "en")
              (quiet (calls_tool "get_weather" "{}")) (says "hi") None
              {| tc_name := "get_weather"; tc_arguments := "{}" |} [])
    as [_ [w [Hrun [Hstore [_ [Hsent [Hvar _]]]]]]];
    try reflexivity.
  - discriminate.
  - exists w. repeat split; assumption.
Defined.

(** C9, counterexample: after a turn whose tool call is named [get_weather]
    the session's history is the system turn alone; the user turn of the
    message is not in it. *)
Lemma foreign_tool_call_stores_no_user_turn :
  let s := sample_step (session "en") (text_message (says "hi"))
             (quiet (calls_tool "get_weather" "{}")) in
  state s = Some active /\
  history (data s) = Some [Turn system (Some (get_system_prompt "en"))] /\
  ~ In (user_turn "en" (says "hi")) (history_of (data s)).
Proof.
  split; [ reflexivity | ]. split; [ reflexivity | ].
  cbn. intros [H | []]. discriminate.
Qed.

(** C10 at the sample order. *)
Lemma confirmation_has_order_details_at_sample :
  exists d, order_details (data (confirming full_order)) = Some (JObj d).
Proof.
  destruct (confirmation_has_order_details sample_loads sample_gettext
              sample_str_container sample_admin (confirming full_order))
    as [d [Hd _]].
  - apply confirming_reachable.
  - reflexivity.
  - exists d. exact Hd.
Defined.

(** X1 at the sample order. *)
Lemma confirming_well_formed :
  well_formed (confirming full_order).
Proof.
  apply (reachable_well_formed sample_loads sample_gettext sample_str_container
           sample_admin).
  apply confirming_reachable.
Defined.

(** X2 at a greeting. *)
Lemma text_reply_is_appended_at_sample :
  exists w,
    sample_run (session "en") (text_message (says "hi"))
               (quiet (Replies (Some "Hello!") [])) = (Returns tt, w) /\
    history (data (store w)) =
      Some [ Turn system (Some (get_system_prompt "en"));
             Turn user (Some "hi (Reminder: reply in English only)");
             Turn assistant (Some "Hello!") ] /\
    sent w =
      [ send_message 42 "thinking_message" None None;
        edit_message_text (Some "Hello!") 42 (Delivered 0) None ].
Proof.
  destruct (text_reply_is_appended sample_loads sample_gettext
              sample_str_container sample_admin (session "en")
              (quiet (Replies (Some "Hello!") [])) (says "hi") (Some "Hello!"))
    as [w [Hrun [Hstore [Hsent _]]]]; try reflexivity.
  exists w. rewrite Hstore. repeat split; assumption.
Defined.

(** X7 when the thanks cannot be shown: the operator has the order, the
    session is still confirming. *)
Lemma confirm_failure_keeps_session_at_sample :
  exists w,
    sample_run (confirming full_order) (callback_query (presses "confirm_order"))
               (call_fails 1 (Raises APIError)) = (Raised APIError, w) /\
    store w = confirming full_order /\
    List.length (sent w) = 1.
Proof.
  destruct (confirm_failure_keeps_session sample_loads sample_gettext
              sample_str_container sample_admin (confirming full_order)
              (call_fails 1 (Raises APIError)) (presses "confirm_order")
              [ ("arrival_time", JStr "Tomorrow at 8pm");
                ("duration_hours", JInt 3);
                ("hookah_masters_count", JInt 2);
                ("hookahs_count", JInt 5);
                ("location", JStr "Main St 1");
                ("phone_number", JStr "+1234567890") ]
              1 APIError)
    as [w [Hrun [Hstore Hsent]]]; try reflexivity.
  - lia.
  - intros j Hj. assert (j = 0) as -> by lia. reflexivity.
  - exists w. rewrite Hsent. repeat split; assumption.
Defined.

(** X8 at the data [lang_pt_BR]: the code is [pt]. *)
Lemma language_filter_gives_code_at_sample :
  lang (data (sample_step (Storage (Some waiting_for_language) no_data)
                (callback_query (presses "lang_pt_BR"))
                (quiet (Raises APIError))))
  = Some "pt".
Proof.
  destruct (language_filter_gives_code sample_loads sample_gettext
              sample_str_container sample_admin
              (Storage (Some waiting_for_language) no_data)
              (quiet (Raises APIError)) (presses "lang_pt_BR"))
    as [r [code [rest [Hr [Hsplit Hrun]]]]];
    [ reflexivity | reflexivity | ].
  cbn in Hr. injection Hr as Hr. subst r.
  cbn in Hsplit. injection Hsplit as Hcode _. subst code.
  apply Hrun; reflexivity.
Defined.

(** X9 when the prompt cannot be deleted. *)
Lemma language_choice_undelivered_at_sample :
  exists w,
    sample_run (Storage (Some waiting_for_language) no_data)
               (callback_query (presses "lang_en"))
               (call_fails 0 (Raises APIError)) = (Raised APIError, w) /\
    store w = Storage (Some waiting_for_language) no_data.
Proof.
  apply (language_choice_undelivered sample_loads sample_gettext
           sample_str_container sample_admin
           (Storage (Some waiting_for_language) no_data)
           (call_fails 0 (Raises APIError)) (presses "lang_en") APIError);
    try reflexivity.
  left. reflexivity.
Defined.

(** X10 at a reply with text and two tool calls. *)
Lemma only_first_tool_call_counts_at_sample :
  sample_run (session "en") (text_message order_message)
    (quiet (Replies (Some "one moment")
              [ {| tc_name := "create_hookah_order";
                   tc_arguments := full_payload |};
                {| tc_name := "create_hookah_order";
                   tc_arguments := partial_payload |} ]))
  = sample_run (session "en") (text_message order_message)
      (quiet (calls_tool "create_hookah_order" full_payload)).
Proof.
  apply (only_first_tool_call_counts sample_loads sample_gettext
           sample_str_container sample_admin (session "en")
           (quiet (Replies (Some "one moment")
              [ {| tc_name := "create_hookah_order";
                   tc_arguments := full_payload |};
                {| tc_name := "create_hookah_order";
                   tc_arguments := partial_payload |} ]))
           order_message (Some "one moment")
           {| tc_name := "create_hookah_order"; tc_arguments := full_payload |}
           [ {| tc_name := "create_hookah_order";
                tc_arguments := partial_payload |} ]).
  reflexivity.
Defined.

(** X11 at the payload [[]]. *)
Lemma non_dict_arguments_are_stored_at_sample :
  exists w,
    run list_loads sample_gettext sample_str_container sample_admin
        (session "en") (text_message order_message)
        (quiet (calls_tool "create_hookah_order" "[]")) = (Returns tt, w) /\
    state (store w) = Some active /\
    order_details (data (store w)) = Some (JArr []).
Proof.
  destruct (non_dict_arguments_are_stored list_loads sample_gettext
              sample_str_container sample_admin (session "en")
              (quiet (calls_tool "create_hookah_order" "[]")) order_message
              None {| tc_name := "create_hookah_order"; tc_arguments := "[]" |}
              [] (JArr []))
    as [w [Hrun [Hstore _]]]; try reflexivity.
  - discriminate.
  - exists w. rewrite Hstore. repeat split. exact Hrun.
Defined.

(** X12 at Scenario B with the indicator's deletion refused. *)
Lemma undeleted_indicator_reports_error_at_sample :
  exists w,
    sample_run (session "en") (text_message order_message)
               (call_fails 2 (calls_tool "create_hookah_order" full_payload))
      = (Returns tt, w) /\
    store w = confirming full_order /\
    List.length (sent w) = 3.
Proof.
  destruct (undeleted_indicator_reports_error sample_loads sample_gettext
              sample_str_container sample_admin (session "en")
              (call_fails 2 (calls_tool "create_hookah_order" full_payload))
              order_message None
              {| tc_name := "create_hookah_order"; tc_arguments := full_payload |}
              []
              [ ("arrival_time", JStr "Tomorrow at 8pm");
                ("duration_hours", JInt 3);
                ("hookah_masters_count", JInt 2);
                ("hookahs_count", JInt 5);
                ("location", JStr "Main St 1");
                ("phone_number", JStr "+1234567890") ]
              APIError)
    as [w [Hrun [Hstore Hsent]]]; try reflexivity.
  exists w. rewrite Hsent. repeat split; assumption.
Defined.

(** X13 after a greeting and its reply. *)
Lemma paired_while_replies_are_delivered_at_sample :
  history_paired
    (sample_step (session "en") (text_message (says "hi"))
                 (quiet (Replies (Some "Hello!") []))).
Proof.
  apply (paired_while_replies_are_delivered sample_loads sample_gettext
           sample_str_container sample_admin).
  apply delivering_step; [ | reflexivity ].
  change (session "en")
    with (sample_step
            (sample_step fresh (start_command (says "/start"))
                         (quiet (Raises APIError)))
            (callback_query (presses "lang_en")) (quiet (Raises APIError))).
  repeat (apply delivering_step; [ | exact I ]).
  apply delivering_fresh.
Defined.

(** X15 at a greeting and its reply: two turns are added. *)
Lemma stored_history_only_grows_at_sample :
  data (sample_step (session "en") (text_message (says "hi"))
                    (quiet (Replies (Some "Hello!") []))) = no_data \/
  extends_by 2
    (history_of (data (sample_step (session "en") (text_message (says "hi"))
                                   (quiet (Replies (Some "Hello!") [])))))
    (history_of (data (session "en"))).
Proof.
  apply (stored_history_only_grows sample_loads sample_gettext
           sample_str_container sample_admin).
  left. reflexivity.
Defined.

(** X16 at Scenario B followed by an edit press. *)
Lemma triggering_message_is_not_stored_at_sample :
  sample_step
    (sample_step (session "en") (text_message order_message)
                 (quiet (calls_tool "create_hookah_order" full_payload)))
    (callback_query (presses "edit_order")) (quiet (Raises APIError))
  = Storage (Some active)
      (UserData (Some "en")
         (Some [Turn system (Some (get_system_prompt "en")); edit_turn])
         (Some full_order)).
Proof.
  apply (triggering_message_is_not_stored sample_loads sample_gettext
           sample_str_container sample_admin (session "en")
           (quiet (calls_tool "create_hookah_order" full_payload))
           (quiet (Raises APIError)) order_message None
           {| tc_name := "create_hookah_order"; tc_arguments := full_payload |}
           []
           [ ("arrival_time", JStr "Tomorrow at 8pm");
             ("duration_hours", JInt 3);
             ("hookah_masters_count", JInt 2);
             ("hookahs_count", JInt 5);
             ("location", JStr "Main St 1");
             ("phone_number", JStr "+1234567890") ]
           (presses "edit_order"));
    reflexivity.
Defined.

(** X17 at a greeting in an English session. *)
Lemma request_opens_with_prompt_at_sample :
  exists rest,
    request_for (session "en") (says "hi") =
      Turn system (Some (get_system_prompt "en"))
      :: (rest ++ [Turn user (Some "hi (Reminder: reply in English only)")])%list.
Proof.
  destruct (request_opens_with_prompt sample_loads sample_gettext
              sample_str_container sample_admin (session "en") (says "hi"))
    as [code [rest [Hl Hreq]]].
  - apply session_reachable.
  - reflexivity.
  - injection Hl as <-. exists rest. exact Hreq.
Defined.

(** X18 at a timeout of the provider. *)
Lemma failed_turn_leaves_no_trace_at_sample :
  sample_step (session "en") (text_message (says "hi"))
              (quiet (Raises TimeoutError))
  = session "en".
Proof.
  apply (failed_turn_leaves_no_trace sample_loads sample_gettext
           sample_str_container sample_admin);
    try reflexivity.
  - apply session_reachable.
  - left. exists TimeoutError. reflexivity.
Defined.
